(** * antifake-email-js: the matcher of fake domains and plus addressing

    A shallow embedding of [index.js] (hostnameFromEmailAddress, isFakeDomain,
    isFakeEmail, isPlusAddressingEmail) and of the pieces of the JavaScript
    library the four functions call: ToBoolean, toLowerCase, trim,
    split, includes, the RegExp constructor and String.prototype.search.

    Strings.  A JavaScript string is a sequence of UTF-16 code units.  The
    model keeps the code units U+0000..U+00FF (Latin-1), one [ascii] each;
    on that range toLowerCase, trim and the line terminators of [.] are the
    ones of ECMAScript.  Strings with code units above U+00FF are outside the
    model.

    Regular expressions.  The pattern that isFakeDomain builds from a key is
    parsed by [RegExp].  The parser covers literal characters, [.], identity
    escapes of syntax characters, the quantifiers [*], [+], [?] (greedy or
    lazy), [^], [$] and [|]; a pattern written with these alone that is
    invalid (nothing to repeat, an unmatched closing parenthesis, a trailing
    backslash) throws SyntaxError; any other syntax (groups, classes, braces,
    class escapes) ends the call with [OutOfFragment], about which the model
    says nothing.

    The bundled dataset [./json/data.json] is not among the sources: it is
    the parameter [static_json_v1] of isFakeDomain and isFakeEmail. *)

From Stdlib Require Import Ascii String List ZArith Bool Lia.
Import ListNotations.

Local Open Scope list_scope.
Local Open Scope char_scope.

(** ** Strings *)

Definition jsstring := list ascii.

Definition js (s : string) : jsstring := list_ascii_of_string s.
Arguments js s%_string.

Definition code (c : ascii) : N := N_of_ascii c.

Definition jsstring_eqb (a b : jsstring) : bool :=
  if list_eq_dec ascii_dec a b then true else false.

(** LineTerminator: LF and CR (U+2028 and U+2029 are above the range). *)
Definition is_line_terminator (c : ascii) : bool :=
  (code c =? 10)%N || (code c =? 13)%N.

(** WhiteSpace and LineTerminator, the characters that trim removes:
    TAB, LF, VT, FF, CR, SP and NBSP. *)
Definition is_white_space (c : ascii) : bool :=
  (code c =? 9)%N || (code c =? 10)%N || (code c =? 11)%N || (code c =? 12)%N
  || (code c =? 13)%N || (code c =? 32)%N || (code c =? 160)%N.

(** The lowercase mapping of Unicode on U+0000..U+00FF: A-Z, and
    U+00C0..U+00DE except the multiplication sign U+00D7. *)
Definition lower_char (c : ascii) : ascii :=
  let n := code c in
  if ((65 <=? n)%N && (n <=? 90)%N)
     || ((192 <=? n)%N && (n <=? 222)%N && negb (n =? 215)%N)
  then ascii_of_N (n + 32)
  else c.

Definition toLowerCase (s : jsstring) : jsstring := map lower_char s.

Fixpoint trimStart (s : jsstring) : jsstring :=
  match s with
  | [] => []
  | c :: s' => if is_white_space c then trimStart s' else s
  end.

Definition trimEnd (s : jsstring) : jsstring := rev (trimStart (rev s)).

Definition trim (s : jsstring) : jsstring := trimEnd (trimStart s).

(** [s.includes(c)] for a one-character search string. *)
Definition includes (s : jsstring) (c : ascii) : bool :=
  existsb (fun x => x =? c) s.

(** [s.split(/c/)]: the pieces between the occurrences of the character. *)
Fixpoint split (c : ascii) (s : jsstring) : list jsstring :=
  match s with
  | [] => [[]]
  | x :: s' =>
      if x =? c then [] :: split c s'
      else match split c s' with
           | piece :: pieces => (x :: piece) :: pieces
           | [] => [[x]]
           end
  end.

(** ** Values *)

Inductive value : Type :=
| VUndefined
| VNull
| VBoolean (b : bool)
| VNumber (n : Z)
| VNaN
| VString (s : jsstring)
| VObject.

Definition ToBoolean (v : value) : bool :=
  match v with
  | VUndefined | VNull | VNaN => false
  | VBoolean b => b
  | VNumber n => negb (n =? 0)%Z
  | VString s => match s with [] => false | _ => true end
  | VObject => true
  end.

(** [array[i]]: the element, or undefined past the end. *)
Definition element (pieces : list jsstring) (i : nat) : value :=
  match nth_error pieces i with
  | Some s => VString s
  | None => VUndefined
  end.

(** ** Completions *)

Inductive error : Type := SyntaxError.

Inductive completion (A : Type) : Type :=
| Normal (a : A)
| Throw (e : error)
| OutOfFragment.

Arguments Normal {A} a.
Arguments Throw {A} e.
Arguments OutOfFragment {A}.

Definition bind {A B : Type} (m : completion A) (f : A -> completion B)
  : completion B :=
  match m with
  | Normal a => f a
  | Throw e => Throw e
  | OutOfFragment => OutOfFragment
  end.

Notation "x <- m ;; k" := (bind m (fun x => k))
  (at level 61, m at next level, right associativity).

(** ** Regular expressions *)

Module RegExp.

Inductive atom : Type :=
| AChar (c : ascii)
| ADot.

Inductive quantifier : Type := QOne | QStar | QPlus | QOpt.

Inductive term : Type :=
| TAtom (a : atom) (q : quantifier)
| TBegin
| TEnd.

Definition alternative := list term.

(** A pattern is a disjunction of alternatives. *)
Definition regexp := list alternative.

Inductive token : Type :=
| KAtom (a : atom)
| KQuant (q : quantifier)
| KBegin
| KEnd
| KBar
| KClose.

(** SyntaxCharacter of the pattern grammar. *)
Definition is_syntax_character (c : ascii) : bool :=
  (c =? "^") || (c =? "$") || (c =? "\") || (c =? ".") || (c =? "*")
  || (c =? "+") || (c =? "?") || (c =? "(") || (c =? ")") || (c =? "[")
  || (c =? "]") || (c =? "{") || (c =? "}") || (c =? "|").

Definition punctuator (c : ascii) : completion token :=
  if c =? "." then Normal (KAtom ADot)
  else if c =? "^" then Normal KBegin
  else if c =? "$" then Normal KEnd
  else if c =? "|" then Normal KBar
  else if c =? "*" then Normal (KQuant QStar)
  else if c =? "+" then Normal (KQuant QPlus)
  else if c =? "?" then Normal (KQuant QOpt)
  else if c =? ")" then Normal KClose
  else if is_syntax_character c then OutOfFragment
  else Normal (KAtom (AChar c)).

Fixpoint tokenize (src : jsstring) : completion (list token) :=
  match src with
  | [] => Normal []
  | c :: rest =>
      if c =? "\" then
        match rest with
        | [] => Throw SyntaxError
        | e :: rest' =>
            if is_syntax_character e || (e =? "/") then
              ts <- tokenize rest' ;; Normal (KAtom (AChar e) :: ts)
            else OutOfFragment
        end
      else
        t <- punctuator c ;; ts <- tokenize rest ;; Normal (t :: ts)
  end.

Definition add_term (t : term) (r : completion regexp) : completion regexp :=
  alts <- r ;;
  match alts with
  | alt :: alts' => Normal ((t :: alt) :: alts')
  | [] => Normal [[t]]
  end.

Definition new_alternative (r : completion regexp) : completion regexp :=
  alts <- r ;; Normal ([] :: alts).

Fixpoint build (ts : list token) : completion regexp :=
  match ts with
  | [] => Normal [[]]
  | KBar :: r => new_alternative (build r)
  | KBegin :: r => add_term TBegin (build r)
  | KEnd :: r => add_term TEnd (build r)
  | KAtom a :: KQuant q :: KQuant QOpt :: r => add_term (TAtom a q) (build r)
  | KAtom a :: KQuant q :: r => add_term (TAtom a q) (build r)
  | KAtom a :: r => add_term (TAtom a QOne) (build r)
  | KQuant _ :: _ => Throw SyntaxError
  | KClose :: _ => Throw SyntaxError
  end.

(** [new RegExp(src)], without flags. *)
Definition create (src : jsstring) : completion regexp :=
  ts <- tokenize src ;; build ts.

Definition accepts (a : atom) (c : ascii) : bool :=
  match a with
  | AChar x => c =? x
  | ADot => negb (is_line_terminator c)
  end.

(** [bos]: the position is the beginning of the input. *)
Fixpoint star (a : atom) (k : bool -> jsstring -> bool)
  (bos : bool) (s : jsstring) : bool :=
  k bos s
  || match s with
     | c :: s' => accepts a c && star a k false s'
     | [] => false
     end.

(** Whether the terms match a prefix of [s]. *)
Fixpoint matches (ts : alternative) (bos : bool) (s : jsstring) : bool :=
  match ts with
  | [] => true
  | TBegin :: ts' => bos && matches ts' bos s
  | TEnd :: ts' => match s with [] => matches ts' bos s | _ => false end
  | TAtom a QOne :: ts' =>
      match s with
      | c :: s' => accepts a c && matches ts' false s'
      | [] => false
      end
  | TAtom a QOpt :: ts' =>
      matches ts' bos s
      || match s with
         | c :: s' => accepts a c && matches ts' false s'
         | [] => false
         end
  | TAtom a QStar :: ts' => star a (matches ts') bos s
  | TAtom a QPlus :: ts' =>
      match s with
      | c :: s' => accepts a c && star a (matches ts') false s'
      | [] => false
      end
  end.

Definition matches_here (re : regexp) (bos : bool) (s : jsstring) : bool :=
  existsb (fun alt => matches alt bos s) re.

Fixpoint search_from (re : regexp) (i : nat) (bos : bool) (s : jsstring) : Z :=
  if matches_here re bos s then Z.of_nat i
  else match s with
       | [] => (-1)%Z
       | _ :: s' => search_from re (S i) false s'
       end.

(** [s.search(re)]: the index of the leftmost match, or -1. *)
Definition search (re : regexp) (s : jsstring) : Z :=
  search_from re 0 true s.

End RegExp.

(** ** The matcher *)

(** The configuration object [{ domains: { key: metadata } }]: the keys of
    [domains] in the order of [Object.keys]; the metadata is never read. *)
Record FakeDomainConfig : Type := { domains : list jsstring }.

(** The regular expression literal [/@/]. *)
Definition at_sign : RegExp.regexp := [[RegExp.TAtom (RegExp.AChar "@") RegExp.QOne]].

Definition hostnameFromEmailAddress (email : value) : value :=
  match email with
  | VString s => (* typeof email === "string" *)
      if ToBoolean email && (RegExp.search at_sign s >? 0)%Z
      then element (split "@" s) 1
      else VNull
  | _ => VNull
  end.

(** [dom.replace(/\./g, '\\.')] *)
Definition escape_dots (dom : jsstring) : jsstring :=
  flat_map (fun c => if c =? "." then ["\"; "."] else [c]) dom.

(** The template [`.+\\.${dom.replace(/\./g, '\\.')}$`] *)
Definition subdomain_pattern (dom : jsstring) : jsstring :=
  js ".+\." ++ escape_dots dom ++ js "$".

(** The loop over [Object.keys(json.domains)]. *)
Fixpoint first_match (keys : list jsstring) (normalizedDomain : jsstring)
  : completion value :=
  match keys with
  | [] => Normal (VBoolean false)
  | dom :: keys' =>
      if jsstring_eqb dom normalizedDomain then Normal (VString dom)
      else
        re <- RegExp.create (subdomain_pattern dom) ;;
        if (RegExp.search re normalizedDomain =? 0)%Z then Normal (VString dom)
        else first_match keys' normalizedDomain
  end.

Section Matcher.

(** The bundled dataset [./json/data.json], not part of the sources. *)
Variable static_json_v1 : FakeDomainConfig.

(** The configuration a call works with: [if (!json) json = static_json_v1]. *)
Definition effective (json : option FakeDomainConfig) : FakeDomainConfig :=
  match json with
  | Some j => j
  | None => static_json_v1
  end.

Definition isFakeDomain (domain : value) (json : option FakeDomainConfig)
  : completion value :=
  match domain with
  | VString s =>
      if negb (ToBoolean domain) then Normal (VBoolean false)
      else
        let normalizedDomain := trim (toLowerCase s) in
        first_match (domains (effective json)) normalizedDomain
  | _ => Normal (VBoolean false)
  end.

Definition isFakeEmail (email : value) (json : option FakeDomainConfig)
  : completion value :=
  isFakeDomain (hostnameFromEmailAddress email) json.

End Matcher.

Definition isPlusAddressingEmail (email : value) : value :=
  match email with
  | VString s =>
      if ToBoolean email && (RegExp.search at_sign s >? 0)%Z
      then
        (* split never returns an empty array: element 0 is a string *)
        let localPart := hd [] (split "@" s) in
        VBoolean (includes localPart "+")
      else VBoolean false
  | _ => VBoolean false
  end.

(** ** The configuration of the test suite *)

Definition mockJson : FakeDomainConfig :=
  {| domains := [js "tempmail.com"; js "fakeemail.net";
                 js "throwaway.email"; js "guerrillamail.com"] |}.

Definition str (s : string) : value := VString (js s).
Arguments str s%_string.

(** The line feed U+000A. *)
Definition LF : ascii := "010".

(** The bundled dataset of the closed examples below, which all pass a
    configuration of their own. *)
Definition bundled : FakeDomainConfig := mockJson.

(** A configuration in which a key is a subdomain of an earlier key. *)
Definition overlapping : FakeDomainConfig :=
  {| domains := [js "mail.com"; js "temp.mail.com"] |}.

(** A configuration with a key that holds a line feed. *)
Definition with_line_feed : FakeDomainConfig :=
  {| domains := [js "tempmail.com"; js "mail" ++ LF :: js "box.tempmail.com"] |}.

(** A configuration whose key is a closing parenthesis. *)
Definition unbalanced : FakeDomainConfig := {| domains := [js ")"] |}.

(** ** Predicates of the statements *)

(** A key whose characters, once its dots are escaped, are all literal in
    the pattern: no syntax character other than the dot. *)
Definition plain_char (c : ascii) : bool :=
  negb (RegExp.is_syntax_character c) || (c =? ".").

Definition plain_key (k : jsstring) : bool := forallb plain_char k.

Definition no_line_terminator (s : jsstring) : bool :=
  forallb (fun c => negb (is_line_terminator c)) s.

(** [nd] is [k] below at least one character, none of them a line
    terminator, and a dot. *)
Definition subdomain_of (k nd : jsstring) : Prop :=
  exists p, p <> [] /\ no_line_terminator p = true /\ nd = p ++ "." :: k.

(** What one round of the loop tests for the key [k]. *)
Definition key_matches (k nd : jsstring) : Prop :=
  nd = k \/ subdomain_of k nd.

(** The normalization of isFakeDomain. *)
Definition normalize (s : jsstring) : jsstring := trim (toLowerCase s).

(** The email shapes that the extraction of a host name rejects: a value
    that is not a string, the empty string, a string without an at sign and
    a string that begins with an at sign. *)
Definition no_local_part (email : value) : Prop :=
  forall s, email = VString s ->
            s = [] \/ includes s "@" = false \/ exists r, s = "@" :: r.

Definition all_white_space (s : jsstring) : bool := forallb is_white_space s.

(** What a call of isFakeDomain or isFakeEmail yields when it returns. *)
Definition key_or_false (keys : list jsstring) (r : completion value) : Prop :=
  r = Normal (VBoolean false) \/ exists k, In k keys /\ r = Normal (VString k).

(** The terms that the pattern of a plain key parses to. *)

Module Pattern.
Import RegExp.

Definition literal_tokens (k : jsstring) : list token :=
  map (fun c => KAtom (AChar c)) k.

Definition literal_terms (k : jsstring) : alternative :=
  map (fun c => TAtom (AChar c) QOne) k.

(** The continuation of [.+]: a dot, the key and the end of the input. *)
Definition dot_key (k : jsstring) : alternative :=
  TAtom (AChar ".") QOne :: literal_terms k ++ [TEnd].

(** The parsed pattern of a plain key. *)
Definition subdomain_terms (k : jsstring) : alternative :=
  TAtom ADot QPlus :: dot_key k.

End Pattern.

(** ** Characters *)

Ltac by_cases_on_char c :=
  destruct c as [[] [] [] [] [] [] [] []]; vm_compute; intros;
  try reflexivity; try discriminate; try tauto.

Lemma plain_char_punctuator (c : ascii) :
  plain_char c = true -> (c =? ".") = false ->
  (c =? "\") = false /\
  RegExp.punctuator c = Normal (RegExp.KAtom (RegExp.AChar c)).
Proof. by_cases_on_char c. Qed.

Lemma white_space_lower (c : ascii) :
  is_white_space (lower_char c) = is_white_space c.
Proof. by_cases_on_char c. Qed.

Lemma line_terminator_lower (c : ascii) :
  is_line_terminator (lower_char c) = is_line_terminator c.
Proof. by_cases_on_char c. Qed.

Lemma jsstring_eqb_eq (a b : jsstring) : jsstring_eqb a b = true <-> a = b.
Proof.
  unfold jsstring_eqb. destruct (list_eq_dec ascii_dec a b); split;
    intros; congruence.
Qed.

(** ** The pattern of a plain key *)

Module Parsing.
Import RegExp Pattern.

Lemma tokenize_escape_dots (k rest : jsstring) :
  plain_key k = true ->
  tokenize (escape_dots k ++ rest) =
  (ts <- tokenize rest ;; Normal (literal_tokens k ++ ts)).
Proof.
  induction k as [|c k IH]; intros Hk.
  - simpl. destruct (tokenize rest); reflexivity.
  - simpl in Hk. apply andb_true_iff in Hk as [Hc Hk].
    cbn [escape_dots flat_map].
    destruct (c =? ".") eqn:Hdot.
    + apply Ascii.eqb_eq in Hdot. subst c.
      change ((["\"; "."] ++ flat_map (fun c => if c =? "." then ["\"; "."] else [c]) k) ++ rest)
        with ("\" :: "." :: (escape_dots k ++ rest)).
      cbn [tokenize]. change ("\" =? "\") with true. cbv beta iota.
      change (is_syntax_character "." || ("." =? "/")) with true. cbv beta iota.
      rewrite (IH Hk). destruct (tokenize rest); reflexivity.
    + destruct (plain_char_punctuator c Hc Hdot) as [Hbs Hp].
      change (([c] ++ flat_map (fun c => if c =? "." then ["\"; "."] else [c]) k) ++ rest)
        with (c :: (escape_dots k ++ rest)).
      cbn [tokenize]. rewrite Hbs, Hp. cbn [bind].
      rewrite (IH Hk). destruct (tokenize rest); reflexivity.
Qed.

Lemma build_atom_alone (a : atom) (ts : list token) :
  (forall q ts', ts <> KQuant q :: ts') ->
  build (KAtom a :: ts) = add_term (TAtom a QOne) (build ts).
Proof.
  intros H. destruct ts as [|[] ts]; try reflexivity.
  exfalso. eapply H. reflexivity.
Qed.

Lemma build_literal (k : jsstring) :
  build (literal_tokens k ++ [KEnd]) = Normal [literal_terms k ++ [TEnd]].
Proof.
  induction k as [|c k IH].
  - reflexivity.
  - change (literal_tokens (c :: k) ++ [KEnd])
      with (KAtom (AChar c) :: (literal_tokens k ++ [KEnd])).
    rewrite build_atom_alone.
    + rewrite IH. reflexivity.
    + intros q ts'. destruct k; discriminate.
Qed.

Lemma create_subdomain_pattern (k : jsstring) :
  plain_key k = true ->
  create (subdomain_pattern k) = Normal [subdomain_terms k].
Proof.
  intros Hk. unfold create, subdomain_pattern.
  change (js ".+\." ++ escape_dots k ++ js "$")
    with ("." :: "+" :: "\" :: "." :: (escape_dots k ++ ["$"])).
  cbn [tokenize]. change ("." =? "\") with false. change ("+" =? "\") with false.
  change ("\" =? "\") with true. cbv beta iota.
  change (is_syntax_character "." || ("." =? "/")) with true. cbv beta iota.
  rewrite (tokenize_escape_dots k ["$"] Hk).
  change (tokenize ["$"]) with (Normal [KEnd]).
  change (punctuator ".") with (Normal (KAtom ADot)).
  change (punctuator "+") with (Normal (KQuant QPlus)).
  cbn [bind].
  change (build (KAtom ADot :: KQuant QPlus :: KAtom (AChar ".") :: literal_tokens k ++ [KEnd]))
    with (add_term (TAtom ADot QPlus) (build (KAtom (AChar ".") :: literal_tokens k ++ [KEnd]))).
  rewrite build_atom_alone.
  - rewrite build_literal. reflexivity.
  - intros q ts'. destruct k; discriminate.
Qed.

End Parsing.

(** ** Matching the pattern of a plain key *)

Module Matching.
Import RegExp Pattern.

Lemma matches_literal (k s : jsstring) (bos : bool) :
  matches (literal_terms k ++ [TEnd]) bos s = true <-> s = k.
Proof.
  revert s bos. induction k as [|c k IH]; intros s bos.
  - simpl. destruct s; split; intros; congruence.
  - change (literal_terms (c :: k) ++ [TEnd])
      with (TAtom (AChar c) QOne :: (literal_terms k ++ [TEnd])).
    cbn [matches]. destruct s as [|x s].
    + split; intros; discriminate.
    + cbn [accepts]. rewrite andb_true_iff, Ascii.eqb_eq, IH.
      split; [intros [-> ->]; reflexivity | intros [= -> ->]; auto].
Qed.

Lemma matches_dot_key (k s : jsstring) (bos : bool) :
  matches (dot_key k) bos s = true <-> s = "." :: k.
Proof. apply (matches_literal ("." :: k)). Qed.

Lemma star_dot_key (k s : jsstring) (bos : bool) :
  star ADot (matches (dot_key k)) bos s = true <->
  exists p, no_line_terminator p = true /\ s = p ++ "." :: k.
Proof.
  revert bos. induction s as [|c s IH]; intros bos.
  - cbn [star]. rewrite orb_false_r, matches_dot_key. split.
    + discriminate.
    + intros [p [_ H]]. destruct p; discriminate.
  - cbn [star]. rewrite orb_true_iff, andb_true_iff, matches_dot_key, IH.
    cbn [accepts]. split.
    + intros [H | [Hc [p [Hp ->]]]].
      * exists []. split; [reflexivity | exact H].
      * exists (c :: p). split; [| reflexivity].
        cbn [no_line_terminator forallb]. rewrite Hc. exact Hp.
    + intros [[|x p] [Hp H]].
      * left. exact H.
      * right. injection H as -> ->.
        cbn [no_line_terminator forallb] in Hp.
        apply andb_true_iff in Hp as [Hx Hp].
        split; [exact Hx | exists p; split; [exact Hp | reflexivity]].
Qed.

Lemma matches_subdomain_terms (k s : jsstring) (bos : bool) :
  matches (subdomain_terms k) bos s = true <-> subdomain_of k s.
Proof.
  unfold subdomain_terms, subdomain_of.
  change (TAtom (AChar ".") QOne :: literal_terms k ++ [TEnd]) with (dot_key k).
  cbn [matches]. destruct s as [|c s].
  - split; [discriminate |].
    intros [p [_ [_ H]]]. destruct p; discriminate.
  - rewrite andb_true_iff, star_dot_key. cbn [accepts]. split.
    + intros [Hc [p [Hp ->]]]. exists (c :: p). split; [discriminate |].
      split; [| reflexivity].
      cbn [no_line_terminator forallb]. rewrite Hc. exact Hp.
    + intros [[|x p] [Hne [Hp H]]]; [congruence |].
      injection H as -> ->. cbn [no_line_terminator forallb] in Hp.
      apply andb_true_iff in Hp as [Hx Hp].
      split; [exact Hx | exists p; split; [exact Hp | reflexivity]].
Qed.

Lemma search_from_range (re : regexp) (s : jsstring) (i : nat) (bos : bool) :
  (search_from re i bos s = -1 \/ Z.of_nat i <= search_from re i bos s)%Z.
Proof.
  revert i bos. induction s as [|c s IH]; intros i bos; cbn [search_from];
    destruct (matches_here re bos _); try lia.
  destruct (IH (S i) false); lia.
Qed.

(** The comparison [s.search(re) === 0] asks for a match at index 0. *)
Lemma search_zero (re : regexp) (s : jsstring) :
  (search re s =? 0)%Z = matches_here re true s.
Proof.
  unfold search. destruct s as [|c s]; cbn [search_from];
    destruct (matches_here re true _); try reflexivity.
  destruct (search_from_range re s 1 false) as [H | H];
    apply Z.eqb_neq; lia.
Qed.

Lemma search_subdomain (k nd : jsstring) :
  (search [subdomain_terms k] nd =? 0)%Z = true <-> subdomain_of k nd.
Proof.
  rewrite search_zero. cbn [matches_here existsb]. rewrite orb_false_r.
  apply matches_subdomain_terms.
Qed.

End Matching.

(** ** One round of the loop *)

Lemma first_match_exact (k : jsstring) (keys : list jsstring) :
  first_match (k :: keys) k = Normal (VString k).
Proof.
  cbn [first_match]. destruct (jsstring_eqb k k) eqn:E; [reflexivity |].
  assert (jsstring_eqb k k = true) by (apply jsstring_eqb_eq; reflexivity).
  congruence.
Qed.

Lemma first_match_hit (k nd : jsstring) (keys : list jsstring) :
  plain_key k = true -> key_matches k nd ->
  first_match (k :: keys) nd = Normal (VString k).
Proof.
  intros Hk [-> | Hsub]; [apply first_match_exact |].
  cbn [first_match]. destruct (jsstring_eqb k nd); [reflexivity |].
  rewrite (Parsing.create_subdomain_pattern k Hk). cbn [bind].
  apply Matching.search_subdomain in Hsub. rewrite Hsub. reflexivity.
Qed.

Lemma first_match_skip (k nd : jsstring) (keys : list jsstring) :
  plain_key k = true -> ~ key_matches k nd ->
  first_match (k :: keys) nd = first_match keys nd.
Proof.
  intros Hk Hno. cbn [first_match].
  destruct (jsstring_eqb k nd) eqn:E.
  - apply jsstring_eqb_eq in E. exfalso. apply Hno. left. congruence.
  - rewrite (Parsing.create_subdomain_pattern k Hk). cbn [bind].
    destruct (RegExp.search _ nd =? 0)%Z eqn:S; [| reflexivity].
    apply Matching.search_subdomain in S. exfalso. apply Hno. right. exact S.
Qed.

Lemma key_matches_dec (k nd : jsstring) :
  plain_key k = true -> key_matches k nd \/ ~ key_matches k nd.
Proof.
  intros Hk. destruct (list_eq_dec ascii_dec nd k) as [-> | Hne].
  - left. left. reflexivity.
  - destruct (RegExp.search [Pattern.subdomain_terms k] nd =? 0)%Z eqn:S.
    + left. right. apply Matching.search_subdomain. exact S.
    + right. intros [H | H]; [congruence |].
      apply Matching.search_subdomain in H. congruence.
Qed.

(** The first key that matches wins. *)
Lemma first_match_first (pre post : list jsstring) (k nd : jsstring) :
  forallb plain_key pre = true -> plain_key k = true ->
  (forall k', In k' pre -> ~ key_matches k' nd) ->
  key_matches k nd ->
  first_match (pre ++ k :: post) nd = Normal (VString k).
Proof.
  induction pre as [|x pre IH]; intros Hpre Hk Hno Hyes.
  - apply first_match_hit; assumption.
  - cbn [forallb] in Hpre. apply andb_true_iff in Hpre as [Hx Hpre].
    change ((x :: pre) ++ k :: post) with (x :: (pre ++ k :: post)).
    rewrite first_match_skip.
    + apply IH; auto. intros k' Hin. apply Hno. right. exact Hin.
    + exact Hx.
    + apply Hno. left. reflexivity.
Qed.

Lemma first_match_none (keys : list jsstring) (nd : jsstring) :
  forallb plain_key keys = true ->
  (forall k, In k keys -> ~ key_matches k nd) ->
  first_match keys nd = Normal (VBoolean false).
Proof.
  induction keys as [|x keys IH]; intros Hp Hno.
  - reflexivity.
  - cbn [forallb] in Hp. apply andb_true_iff in Hp as [Hx Hp].
    rewrite first_match_skip.
    + apply IH; auto. intros k Hin. apply Hno. right. exact Hin.
    + exact Hx.
    + apply Hno. left. reflexivity.
Qed.

(** With plain keys the loop ends with a key of the list or with false. *)
Lemma first_match_returns (keys : list jsstring) (nd : jsstring) :
  forallb plain_key keys = true ->
  first_match keys nd = Normal (VBoolean false) \/
  exists k, In k keys /\ first_match keys nd = Normal (VString k).
Proof.
  induction keys as [|x keys IH]; intros Hp.
  - left. reflexivity.
  - cbn [forallb] in Hp. apply andb_true_iff in Hp as [Hx Hp].
    destruct (key_matches_dec x nd Hx) as [Hyes | Hno].
    + right. exists x. split; [left; reflexivity |].
      apply first_match_hit; assumption.
    + rewrite (first_match_skip x nd keys Hx Hno).
      destruct (IH Hp) as [H | [k [Hin H]]].
      * left. exact H.
      * right. exists k. split; [right; exact Hin | exact H].
Qed.

(** ** The first at sign *)

Lemma matches_here_at_sign (bos : bool) (s : jsstring) :
  RegExp.matches_here at_sign bos s =
  match s with c :: _ => c =? "@" | [] => false end.
Proof.
  unfold at_sign. cbn [RegExp.matches_here existsb RegExp.matches RegExp.accepts].
  destruct s as [|c s]; [reflexivity |].
  rewrite orb_false_r, andb_true_r. reflexivity.
Qed.

Lemma search_from_at_sign (l r : jsstring) (i : nat) (bos : bool) :
  includes l "@" = false ->
  RegExp.search_from at_sign i bos (l ++ "@" :: r) = Z.of_nat (i + length l).
Proof.
  revert i bos. induction l as [|c l IH]; intros i bos Hl.
  - cbn [app RegExp.search_from]. rewrite matches_here_at_sign.
    change ("@" =? "@") with true. cbv iota. f_equal. simpl. lia.
  - cbn [includes existsb] in Hl. apply orb_false_iff in Hl as [Hc Hl].
    cbn [app RegExp.search_from]. rewrite matches_here_at_sign, Hc.
    rewrite (IH (S i) false Hl). f_equal. simpl. lia.
Qed.

Lemma search_from_no_at_sign (s : jsstring) (i : nat) (bos : bool) :
  includes s "@" = false ->
  RegExp.search_from at_sign i bos s = (-1)%Z.
Proof.
  revert i bos. induction s as [|c s IH]; intros i bos Hs;
    cbn [RegExp.search_from]; rewrite matches_here_at_sign.
  - reflexivity.
  - cbn [includes existsb] in Hs. apply orb_false_iff in Hs as [Hc Hs].
    rewrite Hc. apply IH. exact Hs.
Qed.

Lemma split_at_first (l r : jsstring) :
  includes l "@" = false ->
  split "@" (l ++ "@" :: r) = l :: split "@" r.
Proof.
  induction l as [|c l IH]; intros Hl.
  - reflexivity.
  - cbn [includes existsb] in Hl. apply orb_false_iff in Hl as [Hc Hl].
    cbn [app split]. rewrite Hc, (IH Hl). reflexivity.
Qed.

Lemma split_no_separator (s : jsstring) :
  includes s "@" = false -> split "@" s = [s].
Proof.
  induction s as [|c s IH]; intros Hs.
  - reflexivity.
  - cbn [includes existsb] in Hs. apply orb_false_iff in Hs as [Hc Hs].
    cbn [split]. rewrite Hc, (IH Hs). reflexivity.
Qed.

(** The test shared by hostnameFromEmailAddress and isPlusAddressingEmail
    holds for a string with a first at sign below a local part. *)
Lemma local_part_found (l r : jsstring) :
  l <> [] -> includes l "@" = false ->
  ToBoolean (VString (l ++ "@" :: r))
  && (RegExp.search at_sign (l ++ "@" :: r) >? 0)%Z = true.
Proof.
  intros Hne Hl. unfold RegExp.search. rewrite (search_from_at_sign l r 0 true Hl).
  destruct l as [|c l]; [congruence |]. cbn [app ToBoolean andb].
  apply Z.gtb_lt. cbn [length]. lia.
Qed.

Lemma local_part_missing (s : jsstring) :
  no_local_part (VString s) ->
  ToBoolean (VString s) && (RegExp.search at_sign s >? 0)%Z = false.
Proof.
  intros H. destruct (H s eq_refl) as [-> | [Hs | [r ->]]].
  - reflexivity.
  - unfold RegExp.search. rewrite (search_from_no_at_sign s 0 true Hs).
    apply andb_false_r.
  - reflexivity.
Qed.

Lemma hostname_of_address (l rest : jsstring) :
  l <> [] -> includes l "@" = false ->
  hostnameFromEmailAddress (VString (l ++ "@" :: rest)) =
  VString (hd [] (split "@" rest)).
Proof.
  intros Hne Hl. unfold hostnameFromEmailAddress.
  rewrite (local_part_found l rest Hne Hl), (split_at_first l rest Hl).
  unfold element. cbn [nth_error].
  destruct rest as [|c rest]; [reflexivity |]. cbn [split].
  destruct (c =? "@"); [reflexivity |].
  destruct (split "@" rest); reflexivity.
Qed.

Lemma hostname_rejected (email : value) :
  no_local_part email -> hostnameFromEmailAddress email = VNull.
Proof.
  intros H. destruct email; try reflexivity.
  unfold hostnameFromEmailAddress. rewrite (local_part_missing s H). reflexivity.
Qed.

(** ** Trimming *)

Lemma trimStart_white_prefix (w s : jsstring) :
  all_white_space w = true -> trimStart (w ++ s) = trimStart s.
Proof.
  induction w as [|c w IH]; intros Hw; [reflexivity |].
  cbn [all_white_space forallb] in Hw. apply andb_true_iff in Hw as [Hc Hw].
  cbn [app trimStart]. rewrite Hc. apply IH. exact Hw.
Qed.

Lemma trimStart_white (w : jsstring) :
  all_white_space w = true -> trimStart w = [].
Proof.
  intros Hw. rewrite <- (app_nil_r w). rewrite trimStart_white_prefix; auto.
Qed.

Lemma trimStart_app (s t : jsstring) :
  trimStart s <> [] -> trimStart (s ++ t) = trimStart s ++ t.
Proof.
  induction s as [|c s IH]; intros H; [contradiction |].
  cbn [app trimStart] in *. destruct (is_white_space c); auto.
Qed.

Lemma trimEnd_white_suffix (s w : jsstring) :
  all_white_space w = true -> trimEnd (s ++ w) = trimEnd s.
Proof.
  intros Hw. unfold trimEnd. rewrite rev_app_distr.
  rewrite trimStart_white_prefix; [reflexivity |].
  unfold all_white_space in *. rewrite forallb_forall in *.
  intros c Hc. apply Hw. apply in_rev. exact Hc.
Qed.

(** Whitespace around a string does not change what trim returns. *)
Lemma trim_surrounded (w1 s w2 : jsstring) :
  all_white_space w1 = true -> all_white_space w2 = true ->
  trim (w1 ++ s ++ w2) = trim s.
Proof.
  intros H1 H2. unfold trim. rewrite (trimStart_white_prefix w1 _ H1).
  destruct (trimStart s) as [|c t] eqn:E.
  - assert (Hs : all_white_space s = true).
    { clear H1 H2. induction s as [|x s IH]; [reflexivity |].
      cbn [trimStart] in E. cbn [all_white_space forallb].
      destruct (is_white_space x); [apply IH; exact E | discriminate]. }
    rewrite trimStart_white; [reflexivity |].
    unfold all_white_space in *. rewrite forallb_app, Hs, H2. reflexivity.
  - rewrite trimStart_app by (rewrite E; discriminate).
    rewrite E. apply trimEnd_white_suffix. exact H2.
Qed.

(** trimEnd leaves a string alone that ends with a string it leaves alone. *)
Lemma trimEnd_app (a k : jsstring) :
  k <> [] -> trimEnd k = k -> trimEnd (a ++ k) = a ++ k.
Proof.
  intros Hne Hk. unfold trimEnd in *. rewrite rev_app_distr.
  assert (Hr : trimStart (rev k) = rev k).
  { rewrite <- (rev_involutive (trimStart (rev k))), Hk. reflexivity. }
  rewrite trimStart_app.
  - rewrite Hr, <- rev_app_distr. apply rev_involutive.
  - rewrite Hr. intros E. apply Hne.
    rewrite <- (rev_involutive k), E. reflexivity.
Qed.

Lemma trimStart_lower (s : jsstring) :
  trimStart (toLowerCase s) = toLowerCase (trimStart s).
Proof.
  induction s as [|c s IH]; [reflexivity |].
  cbn [toLowerCase map trimStart]. rewrite white_space_lower.
  destruct (is_white_space c); [exact IH | reflexivity].
Qed.

Lemma no_line_terminator_lower (s : jsstring) :
  no_line_terminator (toLowerCase s) = no_line_terminator s.
Proof.
  induction s as [|c s IH]; [reflexivity |].
  cbn [toLowerCase map no_line_terminator forallb].
  rewrite line_terminator_lower. f_equal. exact IH.
Qed.

Lemma no_line_terminator_app (a b : jsstring) :
  no_line_terminator (a ++ b) = no_line_terminator a && no_line_terminator b.
Proof. apply forallb_app. Qed.

(** ** The three functions *)

Section Properties.

Variable static_json_v1 : FakeDomainConfig.

Lemma isFakeDomain_string (s : jsstring) (json : option FakeDomainConfig) :
  s <> [] ->
  isFakeDomain static_json_v1 (VString s) json =
  first_match (domains (effective static_json_v1 json)) (normalize s).
Proof. intros H. destruct s; [congruence | reflexivity]. Qed.

Lemma isFakeDomain_rejects (v : value) (json : option FakeDomainConfig) :
  (forall s, v = VString s -> s = []) ->
  isFakeDomain static_json_v1 v json = Normal (VBoolean false).
Proof.
  intros H. destruct v; try reflexivity. rewrite (H s eq_refl). reflexivity.
Qed.

Lemma first_match_skip_all (pre rest : list jsstring) (nd : jsstring) :
  forallb plain_key pre = true ->
  (forall k', In k' pre -> ~ key_matches k' nd) ->
  first_match (pre ++ rest) nd = first_match rest nd.
Proof.
  induction pre as [|x pre IH]; intros Hp Hno; [reflexivity |].
  cbn [forallb] in Hp. apply andb_true_iff in Hp as [Hx Hp].
  change ((x :: pre) ++ rest) with (x :: (pre ++ rest)).
  rewrite first_match_skip.
  - apply IH; auto. intros k' Hin. apply Hno. right. exact Hin.
  - exact Hx.
  - apply Hno. left. reflexivity.
Qed.

(** C1, amended.  With a single plain key [k], isFakeDomain returns [k]
    exactly when the input string is not empty and its lowercased, trimmed
    form is [k] or is [k] below a dot and at least one character, none of
    them a line terminator; on every other string it returns false. *)
Theorem C1_single_key (k d : jsstring) :
  plain_key k = true ->
  (isFakeDomain static_json_v1 (VString d) (Some {| domains := [k] |})
   = Normal (VString k)
   <-> d <> [] /\ key_matches k (normalize d))
  /\ (~ (d <> [] /\ key_matches k (normalize d)) ->
      isFakeDomain static_json_v1 (VString d) (Some {| domains := [k] |})
      = Normal (VBoolean false)).
Proof.
  intros Hk. destruct d as [|c d].
  - split.
    + split; [discriminate | intros [H _]; congruence].
    + reflexivity.
  - rewrite isFakeDomain_string by discriminate. cbn [effective domains].
    destruct (key_matches_dec k (normalize (c :: d)) Hk) as [Hyes | Hno].
    + rewrite (first_match_hit _ _ [] Hk Hyes). split.
      * split; [intros _; split; [discriminate | exact Hyes] | reflexivity].
      * intros H. exfalso. apply H. split; [discriminate | exact Hyes].
    + rewrite (first_match_skip _ _ [] Hk Hno). cbn [first_match]. split.
      * split; [discriminate | intros [_ H]; contradiction].
      * reflexivity.
Qed.

(** C2, amended.  For a local part that is not empty and has no at sign and
    a domain that has no at sign, isFakeEmail of the address is isFakeDomain
    of the domain. *)
Theorem C2_email_delegates (json : option FakeDomainConfig)
  (localpart domain : jsstring) :
  localpart <> [] -> includes localpart "@" = false ->
  includes domain "@" = false ->
  isFakeEmail static_json_v1 (VString (localpart ++ "@" :: domain)) json =
  isFakeDomain static_json_v1 (VString domain) json.
Proof.
  intros Hne Hl Hd. unfold isFakeEmail.
  rewrite (hostname_of_address localpart domain Hne Hl).
  rewrite (split_no_separator domain Hd). reflexivity.
Qed.

(** The normal form of a label, a dot and a key. *)
Lemma normalize_label_key (L k : jsstring) :
  L <> [] -> trimStart L = L ->
  toLowerCase k = k -> trimEnd k = k ->
  normalize (L ++ "." :: k) = toLowerCase L ++ "." :: k.
Proof.
  intros Hne HL Hlow Hend. unfold normalize, toLowerCase.
  rewrite map_app. cbn [map]. fold (toLowerCase L) (toLowerCase k).
  rewrite Hlow. change (lower_char ".") with ".". unfold trim.
  assert (Hs : trimStart (toLowerCase L) = toLowerCase L)
    by (rewrite trimStart_lower, HL; reflexivity).
  assert (Hn : toLowerCase L <> []) by (destruct L; [congruence | discriminate]).
  rewrite trimStart_app by (rewrite Hs; exact Hn). rewrite Hs.
  destruct k as [|c k].
  - apply trimEnd_app; [discriminate | reflexivity].
  - change (toLowerCase L ++ "." :: c :: k)
      with (toLowerCase L ++ ["."] ++ c :: k).
    rewrite app_assoc. apply trimEnd_app; [discriminate | exact Hend].
Qed.

(** C3, amended.  For a key [k] of the configuration that is plain,
    lowercase and does not end with whitespace, and a label [L] that is not
    empty, does not begin with whitespace and has no line terminator,
    isFakeDomain of [L.k] returns [k], provided the keys listed before [k]
    are plain and none of them matches the normalized input: the first key
    that matches wins. *)
Theorem C3_label_below_key (json : option FakeDomainConfig)
  (pre post : list jsstring) (k L : jsstring) :
  domains (effective static_json_v1 json) = pre ++ k :: post ->
  forallb plain_key pre = true -> plain_key k = true ->
  toLowerCase k = k -> trimEnd k = k ->
  L <> [] -> trimStart L = L -> no_line_terminator L = true ->
  (forall k', In k' pre -> ~ key_matches k' (normalize (L ++ "." :: k))) ->
  isFakeDomain static_json_v1 (VString (L ++ "." :: k)) json
  = Normal (VString k).
Proof.
  intros Hkeys Hpre Hk Hlow Hend Hne HL Hlt Hno.
  rewrite isFakeDomain_string by (destruct L; [congruence | discriminate]).
  rewrite Hkeys. apply first_match_first; auto.
  right. rewrite (normalize_label_key L k Hne HL Hlow Hend).
  exists (toLowerCase L). repeat split.
  - destruct L; [congruence | discriminate].
  - rewrite no_line_terminator_lower. exact Hlt.
Qed.

(** C5, amended.  For a key [k] of the configuration that is not empty,
    lowercase and without whitespace at either end, isFakeDomain of [k]
    returns [k], and so does isFakeDomain of two spaces, any string [u]
    whose lowercase form is [k] (an uppercased [k]) and two spaces, provided
    the keys listed before [k] are plain and none of them matches [k]. *)
Theorem C5_exact_key (json : option FakeDomainConfig)
  (pre post : list jsstring) (k : jsstring) :
  domains (effective static_json_v1 json) = pre ++ k :: post ->
  forallb plain_key pre = true ->
  k <> [] -> toLowerCase k = k -> trim k = k ->
  (forall k', In k' pre -> ~ key_matches k' k) ->
  isFakeDomain static_json_v1 (VString k) json = Normal (VString k)
  /\ forall u, toLowerCase u = k ->
       isFakeDomain static_json_v1 (VString (js "  " ++ u ++ js "  ")) json
       = Normal (VString k).
Proof.
  intros Hkeys Hpre Hne Hlow Htrim Hno.
  assert (Hfirst : first_match (pre ++ k :: post) k = Normal (VString k)).
  { rewrite (first_match_skip_all pre (k :: post) k Hpre Hno).
    apply first_match_exact. }
  split.
  - rewrite isFakeDomain_string by exact Hne. rewrite Hkeys.
    unfold normalize. rewrite Hlow, Htrim. exact Hfirst.
  - intros u Hu. rewrite isFakeDomain_string by discriminate. rewrite Hkeys.
    unfold normalize, toLowerCase. rewrite !map_app.
    fold (toLowerCase u). rewrite Hu.
    change (map lower_char (js "  ")) with (js "  ").
    rewrite trim_surrounded by reflexivity. rewrite Htrim. exact Hfirst.
Qed.

(** C6.  For a string whose first at sign is not at index 0,
    isPlusAddressingEmail returns whether the text before that at sign
    contains a plus sign: the text is taken as it is, and what follows the
    at sign plays no part. *)
Theorem C6_plus_in_local_part (localPart rest : jsstring) :
  localPart <> [] -> includes localPart "@" = false ->
  isPlusAddressingEmail (VString (localPart ++ "@" :: rest))
  = VBoolean (includes localPart "+")
  /\ (isPlusAddressingEmail (VString (localPart ++ "@" :: rest))
      = VBoolean true
      <-> In "+" localPart).
Proof.
  intros Hne Hl.
  assert (E : isPlusAddressingEmail (VString (localPart ++ "@" :: rest))
              = VBoolean (includes localPart "+")).
  { unfold isPlusAddressingEmail.
    rewrite (local_part_found localPart rest Hne Hl).
    rewrite (split_at_first localPart rest Hl). reflexivity. }
  split; [exact E |]. rewrite E. unfold includes. split.
  - intros [= H]. apply existsb_exists in H as [x [Hin Hx]].
    apply Ascii.eqb_eq in Hx. subst x. exact Hin.
  - intros Hin. f_equal. apply existsb_exists. exists "+".
    split; [exact Hin | reflexivity].
Qed.

(** C7.  Whatever the configuration, isFakeEmail returns false on a value
    that is not a string, on the empty string, on a string without an at
    sign and on a string that begins with an at sign; and so does
    isPlusAddressingEmail. *)
Theorem C7_no_local_part_is_false (json : option FakeDomainConfig)
  (email : value) :
  no_local_part email ->
  isFakeEmail static_json_v1 email json = Normal (VBoolean false)
  /\ isPlusAddressingEmail email = VBoolean false.
Proof.
  intros H. split.
  - unfold isFakeEmail. rewrite (hostname_rejected email H). reflexivity.
  - destruct email; try reflexivity.
    unfold isPlusAddressingEmail. rewrite (local_part_missing s H). reflexivity.
Qed.

Lemma isFakeDomain_returns (json : option FakeDomainConfig) (v : value) :
  forallb plain_key (domains (effective static_json_v1 json)) = true ->
  key_or_false (domains (effective static_json_v1 json))
               (isFakeDomain static_json_v1 v json).
Proof.
  intros Hp. destruct v as [| | | | |s|]; try (left; reflexivity).
  destruct s as [|c s]; [left; reflexivity |].
  rewrite isFakeDomain_string by discriminate.
  apply first_match_returns. exact Hp.
Qed.

(** C8, amended.  When no key of the configuration in use (the one given,
    or the bundled one) has a syntax character of regular expressions other
    than the dot, then on every value isFakeDomain and isFakeEmail return a
    key of the configuration or false, and isPlusAddressingEmail returns a
    boolean; on a value that is not a string and on the empty string
    isFakeDomain returns false. *)
Theorem C8_returns_normally (json : option FakeDomainConfig) (v : value) :
  forallb plain_key (domains (effective static_json_v1 json)) = true ->
  key_or_false (domains (effective static_json_v1 json))
               (isFakeDomain static_json_v1 v json)
  /\ key_or_false (domains (effective static_json_v1 json))
                  (isFakeEmail static_json_v1 v json)
  /\ (exists b, isPlusAddressingEmail v = VBoolean b)
  /\ ((forall s, v = VString s -> s = []) ->
      isFakeDomain static_json_v1 v json = Normal (VBoolean false)).
Proof.
  intros Hp. repeat split.
  - apply isFakeDomain_returns. exact Hp.
  - unfold isFakeEmail. apply isFakeDomain_returns. exact Hp.
  - destruct v as [| | | | |s|]; try (exists false; reflexivity).
    unfold isPlusAddressingEmail.
    destruct (ToBoolean (VString s) && _); eexists; reflexivity.
  - apply isFakeDomain_rejects.
Qed.

(** C9.  For a string with a first at sign that is not at index 0 and a
    second at sign, isFakeEmail is isFakeDomain of the text between the two:
    the candidate domain has no at sign. *)
Theorem C9_between_the_at_signs (json : option FakeDomainConfig)
  (localPart s rest : jsstring) :
  localPart <> [] -> includes localPart "@" = false ->
  includes s "@" = false ->
  hostnameFromEmailAddress (VString (localPart ++ "@" :: s ++ "@" :: rest))
  = VString s
  /\ isFakeEmail static_json_v1
       (VString (localPart ++ "@" :: s ++ "@" :: rest)) json
     = isFakeDomain static_json_v1 (VString s) json.
Proof.
  intros Hne Hl Hs.
  assert (E : hostnameFromEmailAddress
                (VString (localPart ++ "@" :: s ++ "@" :: rest)) = VString s).
  { rewrite (hostname_of_address localPart _ Hne Hl).
    rewrite (split_at_first s rest Hs). reflexivity. }
  split; [exact E |]. unfold isFakeEmail. rewrite E. reflexivity.
Qed.

Lemma subdomain_no_line_terminator (k nd : jsstring) :
  no_line_terminator k = true -> subdomain_of k nd ->
  no_line_terminator nd = true.
Proof.
  intros Hk [p [_ [Hp ->]]]. rewrite no_line_terminator_app, Hp.
  cbn [no_line_terminator forallb]. exact Hk.
Qed.

(** C10, amended.  When the keys of the configuration are plain and have no
    line terminator, and the lowercased, trimmed form of the input is no key
    but ends with a dot and the key [k] and has a line terminator before
    that suffix, isFakeDomain returns false. *)
Theorem C10_line_terminator_below_key (json : option FakeDomainConfig)
  (k d p : jsstring) :
  In k (domains (effective static_json_v1 json)) ->
  forallb plain_key (domains (effective static_json_v1 json)) = true ->
  forallb no_line_terminator (domains (effective static_json_v1 json)) = true ->
  (forall k', In k' (domains (effective static_json_v1 json)) ->
              normalize d <> k') ->
  normalize d = p ++ "." :: k ->
  no_line_terminator p = false ->
  isFakeDomain static_json_v1 (VString d) json = Normal (VBoolean false).
Proof.
  intros _ Hplain Hlt Hne Hd Hp.
  destruct d as [|c d]; [reflexivity |].
  rewrite isFakeDomain_string by discriminate.
  apply first_match_none; [exact Hplain |].
  intros k' Hin [Heq | Hsub]; [exact (Hne k' Hin Heq) |].
  rewrite forallb_forall in Hlt.
  pose proof (subdomain_no_line_terminator k' _ (Hlt k' Hin) Hsub) as H.
  rewrite Hd, no_line_terminator_app, Hp in H. discriminate.
Qed.

End Properties.

(** C4.  The candidate domain is not everything after the first at sign:
    hostnameFromEmailAddress splits on every at sign and keeps the second
    piece.  For the address of the test suite it hands [name] to
    isFakeDomain, not [name@tempmail.com], and an address whose second piece
    is a fake domain is reported although text follows a second at sign. *)
Theorem C4_second_piece_only :
  hostnameFromEmailAddress (str "user@name@tempmail.com") = str "name"
  /\ hostnameFromEmailAddress (str "user@name@tempmail.com")
     <> str "name@tempmail.com"
  /\ isFakeEmail bundled (str "user@tempmail.com@example.org") (Some mockJson)
     = Normal (str "tempmail.com")
  /\ isFakeDomain bundled (str "tempmail.com@example.org") (Some mockJson)
     = Normal (VBoolean false).
Proof. repeat split; try reflexivity. discriminate. Qed.

(** ** The theorems at concrete inputs *)

Lemma C1_single_key_witness :
  plain_key (js "tempmail.com") = true
  /\ isFakeDomain bundled (str "deep.sub.tempmail.com")
       (Some {| domains := [js "tempmail.com"] |})
     = Normal (str "tempmail.com").
Proof.
  split; [reflexivity |].
  destruct (C1_single_key bundled (js "tempmail.com")
              (js "deep.sub.tempmail.com") eq_refl) as [[_ H] _].
  apply H. split; [discriminate |].
  right. exists (js "deep.sub"). repeat split. discriminate.
Defined.

Lemma C2_email_delegates_witness :
  js "user.name+tag" <> []
  /\ includes (js "user.name+tag") "@" = false
  /\ includes (js "tempmail.com") "@" = false
  /\ isFakeEmail bundled (str "user.name+tag@tempmail.com") (Some mockJson)
     = isFakeDomain bundled (str "tempmail.com") (Some mockJson).
Proof.
  split; [discriminate |]. split; [reflexivity |]. split; [reflexivity |].
  apply (C2_email_delegates bundled (Some mockJson)
           (js "user.name+tag") (js "tempmail.com"));
    [discriminate | reflexivity | reflexivity].
Defined.

Lemma C3_label_below_key_witness :
  isFakeDomain bundled (str "my-user.fakeemail.net") (Some mockJson)
  = Normal (str "fakeemail.net").
Proof.
  apply (C3_label_below_key bundled (Some mockJson)
           [js "tempmail.com"]
           [js "throwaway.email"; js "guerrillamail.com"]
           (js "fakeemail.net") (js "my-user"));
    try reflexivity; try discriminate.
  intros k' [<- | []] [H | H].
  - vm_compute in H. discriminate H.
  - apply Matching.search_subdomain in H. vm_compute in H. discriminate H.
Defined.

Lemma C5_exact_key_witness :
  isFakeDomain bundled (str "fakeemail.net") (Some mockJson)
  = Normal (str "fakeemail.net")
  /\ isFakeDomain bundled (str "  FAKEEMAIL.NET  ") (Some mockJson)
     = Normal (str "fakeemail.net").
Proof.
  assert (Hno : forall k', In k' [js "tempmail.com"] ->
                           ~ key_matches k' (js "fakeemail.net")).
  { intros k' [<- | []] [H | H].
    - discriminate H.
    - apply Matching.search_subdomain in H. vm_compute in H. discriminate H. }
  destruct (C5_exact_key bundled (Some mockJson)
              [js "tempmail.com"]
              [js "throwaway.email"; js "guerrillamail.com"]
              (js "fakeemail.net") eq_refl eq_refl
              ltac:(discriminate) eq_refl eq_refl Hno) as [H1 H2].
  split; [exact H1 |]. exact (H2 (js "FAKEEMAIL.NET") eq_refl).
Defined.

Lemma C6_plus_in_local_part_witness :
  isPlusAddressingEmail (str "user+tag@example+domain.com") = VBoolean true
  /\ isPlusAddressingEmail (str "user@example+domain.com") = VBoolean false.
Proof.
  split.
  - apply (proj1 (C6_plus_in_local_part (js "user+tag")
                    (js "example+domain.com") ltac:(discriminate) eq_refl)).
  - apply (proj1 (C6_plus_in_local_part (js "user")
                    (js "example+domain.com") ltac:(discriminate) eq_refl)).
Defined.

Lemma C7_no_local_part_is_false_witness :
  isFakeEmail bundled (VNumber 42) (Some mockJson) = Normal (VBoolean false)
  /\ isPlusAddressingEmail (VNumber 42) = VBoolean false
  /\ isFakeEmail bundled (str "@tempmail.com") (Some mockJson)
     = Normal (VBoolean false)
  /\ isFakeEmail bundled VNull None = Normal (VBoolean false).
Proof.
  split; [| split; [| split]].
  - apply (C7_no_local_part_is_false bundled (Some mockJson) (VNumber 42)).
    intros s H. discriminate H.
  - apply (C7_no_local_part_is_false bundled (Some mockJson) (VNumber 42)).
    intros s H. discriminate H.
  - apply (C7_no_local_part_is_false bundled (Some mockJson)
             (str "@tempmail.com")).
    intros s [= <-]. right. right. exists (js "tempmail.com"). reflexivity.
  - apply (C7_no_local_part_is_false bundled None VNull).
    intros s H. discriminate H.
Defined.

Lemma C8_returns_normally_witness :
  forallb plain_key (domains mockJson) = true
  /\ key_or_false (domains mockJson)
       (isFakeEmail bundled (str "user@sub.tempmail.com") (Some mockJson)).
Proof.
  split; [reflexivity |].
  apply (C8_returns_normally bundled (Some mockJson)
           (str "user@sub.tempmail.com")).
  reflexivity.
Defined.

Lemma C9_between_the_at_signs_witness :
  hostnameFromEmailAddress (str "user@name@tempmail.com") = str "name"
  /\ isFakeEmail bundled (str "user@name@tempmail.com") (Some mockJson)
     = isFakeDomain bundled (str "name") (Some mockJson).
Proof.
  apply (C9_between_the_at_signs bundled (Some mockJson)
           (js "user") (js "name") (js "tempmail.com"));
    try reflexivity; discriminate.
Defined.

Lemma C10_line_terminator_below_key_witness :
  normalize (js "a" ++ LF :: js "b.tempmail.com")
  = (js "a" ++ LF :: js "b") ++ "." :: js "tempmail.com"
  /\ isFakeDomain bundled (VString (js "a" ++ LF :: js "b.tempmail.com"))
       (Some mockJson)
     = Normal (VBoolean false).
Proof.
  split; [reflexivity |].
  apply (C10_line_terminator_below_key bundled (Some mockJson)
           (js "tempmail.com") (js "a" ++ LF :: js "b.tempmail.com")
           (js "a" ++ LF :: js "b"));
    try reflexivity.
  - left. reflexivity.
  - intros k' Hin H. vm_compute in Hin, H.
    destruct Hin as [<- | [<- | [<- | [<- | []]]]]; discriminate H.
Defined.

(** ** Inputs at which the statements of the specification fail *)

(** C1: the input ends with a dot and the key and has characters before
    them, one of which is a line feed; the result is false. *)
Lemma C1_counterexample :
  let k := js "tempmail.com" in
  let input := js "a" ++ LF :: js "b.tempmail.com" in
  ~ (isFakeDomain bundled (VString input) (Some {| domains := [k] |})
     = Normal (VString k)
     <-> (normalize input = k
          \/ exists p, p <> [] /\ normalize input = p ++ "." :: k)).
Proof.
  intros k input [_ H].
  assert (E : isFakeDomain bundled (VString input) (Some {| domains := [k] |})
              = Normal (VString k)).
  { apply H. right. exists (js "a" ++ LF :: js "b").
    split; [discriminate | reflexivity]. }
  vm_compute in E. discriminate E.
Qed.

(** C2: with the empty local part isFakeEmail returns false, isFakeDomain
    of the domain returns the key. *)
Lemma C2_counterexample :
  includes (js "") "@" = false
  /\ isFakeEmail bundled (VString (js "" ++ "@" :: js "tempmail.com"))
       (Some mockJson)
     <> isFakeDomain bundled (VString (js "tempmail.com")) (Some mockJson).
Proof. split; [reflexivity |]. vm_compute. discriminate. Qed.

(** C3: the key [temp.mail.com] is listed after [mail.com], which matches
    first. *)
Lemma C3_counterexample :
  let k := js "temp.mail.com" in
  let L := js "user" in
  In k (domains overlapping) /\ L <> [] /\ includes L "." = false
  /\ isFakeDomain bundled (VString (L ++ "." :: k)) (Some overlapping)
     = Normal (str "mail.com")
  /\ isFakeDomain bundled (VString (L ++ "." :: k)) (Some overlapping)
     <> Normal (VString k).
Proof.
  intros k L. split; [right; left; reflexivity |].
  split; [discriminate |]. split; [reflexivity |].
  split; [reflexivity |]. vm_compute. discriminate.
Qed.

(** C5: isFakeDomain of the key [temp.mail.com] returns the earlier key
    [mail.com]. *)
Lemma C5_counterexample :
  let k := js "temp.mail.com" in
  In k (domains overlapping) /\ toLowerCase k = k
  /\ isFakeDomain bundled (VString k) (Some overlapping)
     = Normal (str "mail.com")
  /\ isFakeDomain bundled (VString k) (Some overlapping) <> Normal (VString k).
Proof.
  intros k. split; [right; left; reflexivity |]. split; [reflexivity |].
  split; [reflexivity |]. vm_compute. discriminate.
Qed.

(** C8: the pattern built from the key [)] is [.+\.)$], which the RegExp
    constructor rejects: the call throws. *)
Lemma C8_counterexample :
  isFakeDomain bundled (str "gmail.com") (Some unbalanced) = Throw SyntaxError
  /\ ~ (exists r, isFakeDomain bundled (str "gmail.com") (Some unbalanced)
                  = Normal r).
Proof.
  split; [reflexivity |]. intros [r H]. vm_compute in H. discriminate H.
Qed.

(** C10: the input is no key, ends with a dot and the key [tempmail.com]
    and has a line feed before them; the second key, which holds the line
    feed, matches it as a subdomain. *)
Lemma C10_counterexample :
  let k := js "tempmail.com" in
  let input := js "x.mail" ++ LF :: js "box.tempmail.com" in
  In k (domains with_line_feed)
  /\ (forall k', In k' (domains with_line_feed) -> normalize input <> k')
  /\ (exists p, normalize input = p ++ "." :: k /\ In LF p)
  /\ In LF input
  /\ isFakeDomain bundled (VString input) (Some with_line_feed)
     = Normal (VString (js "mail" ++ LF :: js "box.tempmail.com"))
  /\ isFakeDomain bundled (VString input) (Some with_line_feed)
     <> Normal (VBoolean false).
Proof.
  intros k input. split; [left; reflexivity |]. split.
  { intros k' Hin H. vm_compute in Hin, H.
    destruct Hin as [<- | [<- | []]]; discriminate H. }
  split.
  { exists (js "x.mail" ++ LF :: js "box"). split; [reflexivity |].
    vm_compute. tauto. }
  split; [vm_compute; tauto |].
  split; [reflexivity |]. vm_compute. discriminate.
Qed.

(** A line feed at the head of the input is trimmed away before the match. *)
Example leading_line_feed_is_trimmed :
  isFakeDomain bundled (VString (LF :: js "x.tempmail.com")) (Some mockJson)
  = Normal (str "tempmail.com").
Proof. reflexivity. Qed.

(** ** Further properties of the matcher *)

Lemma lower_char_idempotent (c : ascii) :
  lower_char (lower_char c) = lower_char c.
Proof. by_cases_on_char c. Qed.

Lemma toLowerCase_idempotent (s : jsstring) :
  toLowerCase (toLowerCase s) = toLowerCase s.
Proof.
  unfold toLowerCase. rewrite map_map. apply map_ext.
  exact lower_char_idempotent.
Qed.

Lemma all_white_space_lower (w : jsstring) :
  all_white_space (toLowerCase w) = all_white_space w.
Proof.
  induction w as [|c w IH]; [reflexivity |].
  cbn [toLowerCase map all_white_space forallb].
  rewrite white_space_lower. f_equal. exact IH.
Qed.

Lemma trimStart_shorter (s : jsstring) : length (trimStart s) <= length s.
Proof.
  induction s as [|c s IH]; [apply le_n |].
  cbn [trimStart]. destruct (is_white_space c); cbn [length]; lia.
Qed.

Lemma trimStart_of_same_length (s : jsstring) :
  length (trimStart s) = length s -> trimStart s = s.
Proof.
  destruct s as [|c s]; [reflexivity |]. cbn [trimStart].
  destruct (is_white_space c); [| reflexivity].
  intros H. pose proof (trimStart_shorter s). cbn [length] in H. lia.
Qed.

Lemma trimEnd_shorter (s : jsstring) : length (trimEnd s) <= length s.
Proof.
  unfold trimEnd. rewrite length_rev, <- (length_rev s). apply trimStart_shorter.
Qed.

(** A string that trim leaves alone has no whitespace at either end. *)
Lemma trim_fixed_ends (s : jsstring) :
  trim s = s -> trimStart s = s /\ trimEnd s = s.
Proof.
  intros H. unfold trim in H.
  assert (Hlen : length (trimStart s) = length s).
  { pose proof (trimStart_shorter s). pose proof (trimEnd_shorter (trimStart s)).
    rewrite H in *. lia. }
  apply trimStart_of_same_length in Hlen. rewrite Hlen in H. split; assumption.
Qed.

(** A string has no at sign, or a first one. *)
Lemma first_at_sign (s : jsstring) :
  includes s "@" = false \/
  exists l r, s = l ++ "@" :: r /\ includes l "@" = false.
Proof.
  induction s as [|c s IH]; [left; reflexivity |].
  destruct (c =? "@") eqn:Hc.
  - right. apply Ascii.eqb_eq in Hc. subst c. exists [], s. split; reflexivity.
  - destruct IH as [H | [l [r [-> Hl]]]].
    + left. cbn [includes existsb]. rewrite Hc. exact H.
    + right. exists (c :: l), r. split; [reflexivity |].
      cbn [includes existsb]. rewrite Hc. exact Hl.
Qed.

Lemma split_head_clean (s : jsstring) :
  includes (hd [] (split "@" s)) "@" = false.
Proof.
  destruct (first_at_sign s) as [H | [l [r [-> Hl]]]].
  - rewrite (split_no_separator s H). exact H.
  - rewrite (split_at_first l r Hl). exact Hl.
Qed.

(** What the loop has found when it returns a key. *)
Lemma first_match_sound (keys : list jsstring) (nd k : jsstring) :
  forallb plain_key keys = true ->
  first_match keys nd = Normal (VString k) ->
  exists pre post,
    keys = pre ++ k :: post
    /\ (forall k', In k' pre -> ~ key_matches k' nd)
    /\ key_matches k nd.
Proof.
  induction keys as [|x keys IH]; intros Hp H; [discriminate H |].
  cbn [forallb] in Hp. apply andb_true_iff in Hp as [Hx Hp].
  destruct (key_matches_dec x nd Hx) as [Hyes | Hno].
  - rewrite (first_match_hit x nd keys Hx Hyes) in H. injection H as ->.
    exists [], keys. split; [reflexivity |]. split; [| exact Hyes].
    intros k' [].
  - rewrite (first_match_skip x nd keys Hx Hno) in H.
    destruct (IH Hp H) as [pre [post [-> [Hpre Hk]]]].
    exists (x :: pre), post. split; [reflexivity |]. split; [| exact Hk].
    intros k' [<- | Hin]; [exact Hno | exact (Hpre k' Hin)].
Qed.

Lemma first_match_false (keys : list jsstring) (nd : jsstring) :
  forallb plain_key keys = true ->
  first_match keys nd = Normal (VBoolean false) ->
  forall k, In k keys -> ~ key_matches k nd.
Proof.
  induction keys as [|x keys IH]; intros Hp H k Hin; [destruct Hin |].
  cbn [forallb] in Hp. apply andb_true_iff in Hp as [Hx Hp].
  destruct (key_matches_dec x nd Hx) as [Hyes | Hno].
  - rewrite (first_match_hit x nd keys Hx Hyes) in H. discriminate H.
  - rewrite (first_match_skip x nd keys Hx Hno) in H.
    destruct Hin as [<- | Hin]; [exact Hno | exact (IH Hp H k Hin)].
Qed.

(** With plain keys, a key that matches keeps the loop from returning false. *)
Lemma first_match_reports (keys : list jsstring) (nd k : jsstring) :
  forallb plain_key keys = true -> In k keys -> key_matches k nd ->
  exists k', In k' keys /\ first_match keys nd = Normal (VString k').
Proof.
  intros Hp Hin Hk. destruct (first_match_returns keys nd Hp) as [H | H].
  - exfalso. exact (first_match_false keys nd Hp H k Hin Hk).
  - exact H.
Qed.

(** A match of a key is a match of every key it is a subdomain of. *)
Lemma key_matches_below (k' k nd : jsstring) :
  key_matches k' k -> key_matches k nd -> key_matches k' nd.
Proof.
  intros [-> | [q [Hq [Hql ->]]]] Hk; [exact Hk |].
  destruct Hk as [-> | [p [Hp [Hpl ->]]]].
  - right. exists q. repeat split; assumption.
  - right. exists (p ++ "." :: q). repeat split.
    + destruct p; [congruence | discriminate].
    + rewrite no_line_terminator_app, Hpl.
      cbn [no_line_terminator forallb andb]. exact Hql.
    + rewrite <- app_assoc. reflexivity.
Qed.

Section Consequences.

Variable static_json_v1 : FakeDomainConfig.

(** isFakeDomain sees a string through its lowercase form without the
    whitespace around it, whatever the keys are. *)
Theorem isFakeDomain_case_and_padding (json : option FakeDomainConfig)
  (w1 u w2 : jsstring) :
  u <> [] -> all_white_space w1 = true -> all_white_space w2 = true ->
  isFakeDomain static_json_v1 (VString (w1 ++ u ++ w2)) json
  = isFakeDomain static_json_v1 (VString (toLowerCase u)) json.
Proof.
  intros Hu H1 H2.
  rewrite isFakeDomain_string
    by (destruct w1; [destruct u; [congruence | discriminate] | discriminate]).
  rewrite isFakeDomain_string by (destruct u; [congruence | discriminate]).
  f_equal. unfold normalize. rewrite toLowerCase_idempotent.
  unfold toLowerCase. rewrite !map_app.
  fold (toLowerCase w1) (toLowerCase u) (toLowerCase w2).
  apply trim_surrounded; rewrite all_white_space_lower; assumption.
Qed.

(** On a string of whitespace isFakeDomain returns false, unless the empty
    string is a key. *)
Theorem isFakeDomain_blank (json : option FakeDomainConfig) (w : jsstring) :
  forallb plain_key (domains (effective static_json_v1 json)) = true ->
  ~ In [] (domains (effective static_json_v1 json)) ->
  all_white_space w = true ->
  isFakeDomain static_json_v1 (VString w) json = Normal (VBoolean false).
Proof.
  intros Hp Hne Hw. destruct w as [|c w]; [reflexivity |].
  rewrite isFakeDomain_string by discriminate.
  assert (E : normalize (c :: w) = []).
  { unfold normalize, trim. rewrite trimStart_white; [reflexivity |].
    rewrite all_white_space_lower. exact Hw. }
  rewrite E. apply first_match_none; [exact Hp |].
  intros k Hin [H | [p [_ [_ H]]]].
  - apply Hne. rewrite H. exact Hin.
  - destruct p; discriminate H.
Qed.

Lemma returned_key_matches_first (json : option FakeDomainConfig)
  (d k : jsstring) :
  forallb plain_key (domains (effective static_json_v1 json)) = true ->
  isFakeDomain static_json_v1 (VString d) json = Normal (VString k) ->
  d <> []
  /\ exists pre post,
       domains (effective static_json_v1 json) = pre ++ k :: post
       /\ (forall k', In k' pre -> ~ key_matches k' (normalize d))
       /\ key_matches k (normalize d).
Proof.
  intros Hp H. destruct d as [|c d]; [discriminate H |].
  split; [discriminate |].
  rewrite isFakeDomain_string in H by discriminate.
  exact (first_match_sound _ _ _ Hp H).
Qed.

Lemma false_iff_no_key_matches (json : option FakeDomainConfig) (d : jsstring) :
  forallb plain_key (domains (effective static_json_v1 json)) = true ->
  d <> [] ->
  (isFakeDomain static_json_v1 (VString d) json = Normal (VBoolean false)
   <-> forall k, In k (domains (effective static_json_v1 json)) ->
                 ~ key_matches k (normalize d)).
Proof.
  intros Hp Hd. rewrite isFakeDomain_string by exact Hd. split.
  - apply first_match_false. exact Hp.
  - apply first_match_none. exact Hp.
Qed.

(** A key that isFakeDomain returns is the first key of the configuration
    that equals the normalized input or has it as a subdomain. *)
Theorem isFakeDomain_first_match_only (json : option FakeDomainConfig)
  (d k : jsstring) :
  forallb plain_key (domains (effective static_json_v1 json)) = true ->
  isFakeDomain static_json_v1 (VString d) json = Normal (VString k) ->
  d <> []
  /\ exists pre post,
       domains (effective static_json_v1 json) = pre ++ k :: post
       /\ (forall k', In k' pre -> ~ key_matches k' (normalize d))
       /\ key_matches k (normalize d).
Proof. exact (returned_key_matches_first json d k). Qed.

(** isFakeDomain returns false on a string exactly when no key equals the
    normalized input or has it as a subdomain. *)
Theorem isFakeDomain_false_iff (json : option FakeDomainConfig) (d : jsstring) :
  forallb plain_key (domains (effective static_json_v1 json)) = true ->
  d <> [] ->
  (isFakeDomain static_json_v1 (VString d) json = Normal (VBoolean false)
   <-> forall k, In k (domains (effective static_json_v1 json)) ->
                 ~ key_matches k (normalize d)).
Proof. exact (false_iff_no_key_matches json d). Qed.

(** What a configuration reports, a configuration with more keys reports. *)
Theorem isFakeDomain_more_keys (c1 c2 : FakeDomainConfig) (v : value)
  (k : jsstring) :
  forallb plain_key (domains c1) = true ->
  forallb plain_key (domains c2) = true ->
  (forall x, In x (domains c1) -> In x (domains c2)) ->
  isFakeDomain static_json_v1 v (Some c1) = Normal (VString k) ->
  exists k', In k' (domains c2)
             /\ isFakeDomain static_json_v1 v (Some c2) = Normal (VString k').
Proof.
  intros H1 H2 Hincl H. destruct v as [| | | | |d|]; try discriminate H.
  destruct (returned_key_matches_first (Some c1) d k H1 H)
    as [Hd [pre [post [Hkeys [_ Hk]]]]].
  rewrite isFakeDomain_string by exact Hd. cbn [effective] in *.
  apply (first_match_reports (domains c2) (normalize d) k H2); [| exact Hk].
  apply Hincl. rewrite Hkeys. apply in_or_app. right. left. reflexivity.
Qed.

(** Whether isFakeDomain returns false does not depend on the order of the
    keys: two configurations with the same keys agree on it. *)
Theorem isFakeDomain_verdict_order (c1 c2 : FakeDomainConfig) (v : value) :
  forallb plain_key (domains c1) = true ->
  forallb plain_key (domains c2) = true ->
  (forall x, In x (domains c1) <-> In x (domains c2)) ->
  (isFakeDomain static_json_v1 v (Some c1) = Normal (VBoolean false)
   <-> isFakeDomain static_json_v1 v (Some c2) = Normal (VBoolean false)).
Proof.
  intros H1 H2 Hsame. destruct v as [| | | | |d|]; try tauto.
  destruct d as [|c d]; [tauto |].
  rewrite (false_iff_no_key_matches (Some c1) (c :: d) H1) by discriminate.
  rewrite (false_iff_no_key_matches (Some c2) (c :: d) H2) by discriminate.
  cbn [effective]. split; intros H k Hin; apply H; apply Hsame; exact Hin.
Qed.

(** When the keys are not empty and in normal form, a key that isFakeDomain
    returns is returned again for that key as the input. *)
Theorem isFakeDomain_result_is_fixed (json : option FakeDomainConfig)
  (d k : jsstring) :
  forallb plain_key (domains (effective static_json_v1 json)) = true ->
  (forall x, In x (domains (effective static_json_v1 json)) ->
             x <> [] /\ normalize x = x) ->
  isFakeDomain static_json_v1 (VString d) json = Normal (VString k) ->
  isFakeDomain static_json_v1 (VString k) json = Normal (VString k).
Proof.
  intros Hp Hnorm H.
  destruct (returned_key_matches_first json d k Hp H)
    as [_ [pre [post [Hkeys [Hpre Hk]]]]].
  destruct (Hnorm k) as [Hne Hn].
  { rewrite Hkeys. apply in_or_app. right. left. reflexivity. }
  rewrite isFakeDomain_string by exact Hne. rewrite Hn, Hkeys.
  rewrite first_match_skip_all.
  - apply first_match_exact.
  - rewrite Hkeys, forallb_app in Hp. apply andb_true_iff in Hp as [Hp _].
    exact Hp.
  - intros k' Hin Hk'. apply (Hpre k' Hin).
    exact (key_matches_below k' k _ Hk' Hk).
Qed.

(** A label and a dot before a normalized string that isFakeDomain reports
    give a string that it reports too. *)
Theorem isFakeDomain_below_reported (json : option FakeDomainConfig)
  (L d k : jsstring) :
  forallb plain_key (domains (effective static_json_v1 json)) = true ->
  toLowerCase d = d -> trim d = d ->
  L <> [] -> trimStart L = L -> no_line_terminator L = true ->
  isFakeDomain static_json_v1 (VString d) json = Normal (VString k) ->
  exists k', In k' (domains (effective static_json_v1 json))
             /\ isFakeDomain static_json_v1 (VString (L ++ "." :: d)) json
                = Normal (VString k').
Proof.
  intros Hp Hlow Htrim HL Hs Hlt H.
  destruct (returned_key_matches_first json d k Hp H)
    as [_ [pre [post [Hkeys [_ Hk]]]]].
  unfold normalize in Hk. rewrite Hlow, Htrim in Hk.
  destruct (trim_fixed_ends d Htrim) as [_ Hend].
  rewrite isFakeDomain_string by (destruct L; [congruence | discriminate]).
  rewrite (normalize_label_key L d HL Hs Hlow Hend).
  apply (first_match_reports _ _ k Hp).
  - rewrite Hkeys. apply in_or_app. right. left. reflexivity.
  - apply (key_matches_below k d); [exact Hk |].
    right. exists (toLowerCase L). repeat split.
    + destruct L; [congruence | discriminate].
    + rewrite no_line_terminator_lower. exact Hlt.
Qed.

(** isFakeEmail does not look at the local part. *)
Theorem isFakeEmail_ignores_local_part (json : option FakeDomainConfig)
  (l1 l2 rest : jsstring) :
  l1 <> [] -> includes l1 "@" = false ->
  l2 <> [] -> includes l2 "@" = false ->
  isFakeEmail static_json_v1 (VString (l1 ++ "@" :: rest)) json
  = isFakeEmail static_json_v1 (VString (l2 ++ "@" :: rest)) json.
Proof.
  intros H1 Hl1 H2 Hl2. unfold isFakeEmail.
  rewrite (hostname_of_address l1 rest H1 Hl1).
  rewrite (hostname_of_address l2 rest H2 Hl2). reflexivity.
Qed.

(** An address with nothing between the first at sign and the end, or the
    next at sign, is not reported, whatever the keys are. *)
Theorem isFakeEmail_empty_host (json : option FakeDomainConfig)
  (l rest : jsstring) :
  l <> [] -> includes l "@" = false ->
  isFakeEmail static_json_v1 (VString (l ++ ["@"])) json
  = Normal (VBoolean false)
  /\ isFakeEmail static_json_v1 (VString (l ++ "@" :: "@" :: rest)) json
     = Normal (VBoolean false).
Proof.
  intros Hne Hl. unfold isFakeEmail. split;
    rewrite (hostname_of_address l _ Hne Hl); reflexivity.
Qed.

End Consequences.

(** hostnameFromEmailAddress returns null or a string without an at sign,
    on every value. *)
Theorem hostname_null_or_clean (email : value) :
  hostnameFromEmailAddress email = VNull
  \/ exists h, hostnameFromEmailAddress email = VString h
               /\ includes h "@" = false.
Proof.
  destruct email as [| | | | |s|]; try (left; reflexivity).
  destruct (first_at_sign s) as [H | [l [r [-> Hl]]]].
  - left. apply hostname_rejected. intros s' [= <-]. right. left. exact H.
  - destruct l as [|c l].
    + left. apply hostname_rejected. intros s' [= <-].
      right. right. exists r. reflexivity.
    + right. exists (hd [] (split "@" r)). split.
      * apply hostname_of_address; [discriminate | exact Hl].
      * apply split_head_clean.
Qed.

(** isPlusAddressingEmail returns true on the strings with a plus sign in
    a text before their first at sign, and on nothing else. *)
Theorem isPlusAddressingEmail_true_iff (email : value) :
  isPlusAddressingEmail email = VBoolean true
  <-> exists l r, email = VString (l ++ "@" :: r)
                  /\ includes l "@" = false /\ In "+" l.
Proof.
  split.
  - intros H. destruct email as [| | | | |s|]; try discriminate H.
    destruct (first_at_sign s) as [Hs | [l [r [-> Hl]]]].
    + unfold isPlusAddressingEmail in H. rewrite local_part_missing in H.
      * discriminate H.
      * intros s' [= <-]. right. left. exact Hs.
    + exists l, r. split; [reflexivity |]. split; [exact Hl |].
      destruct l as [|c l]; [discriminate H |].
      unfold isPlusAddressingEmail in H.
      rewrite (local_part_found (c :: l) r) in H by (discriminate || exact Hl).
      rewrite (split_at_first (c :: l) r Hl) in H. cbn [hd] in H.
      assert (H' : includes (c :: l) "+" = true) by congruence.
      unfold includes in H'. apply existsb_exists in H' as [x [Hin Hx]].
      apply Ascii.eqb_eq in Hx. subst x. exact Hin.
  - intros [l [r [-> [Hl Hin]]]].
    assert (Hne : l <> []) by (destruct l; [destruct Hin | discriminate]).
    unfold isPlusAddressingEmail.
    rewrite (local_part_found l r Hne Hl), (split_at_first l r Hl).
    cbn [hd]. f_equal. apply existsb_exists. exists "+".
    split; [exact Hin | reflexivity].
Qed.

(** A key whose pattern the RegExp constructor rejects makes isFakeDomain
    throw on every string that is not that key and that no earlier key
    matches, whatever keys follow. *)
Theorem isFakeDomain_rejected_key_throws (bundle : FakeDomainConfig)
  (json : option FakeDomainConfig) (pre post : list jsstring)
  (bad d : jsstring) (e : error) :
  domains (effective bundle json) = pre ++ bad :: post ->
  forallb plain_key pre = true ->
  RegExp.create (subdomain_pattern bad) = Throw e ->
  d <> [] -> normalize d <> bad ->
  (forall k', In k' pre -> ~ key_matches k' (normalize d)) ->
  isFakeDomain bundle (VString d) json = Throw e.
Proof.
  intros Hkeys Hpre Hbad Hd Hne Hno.
  rewrite isFakeDomain_string by exact Hd. rewrite Hkeys.
  rewrite (first_match_skip_all pre (bad :: post) _ Hpre Hno).
  cbn [first_match]. destruct (jsstring_eqb bad (normalize d)) eqn:E.
  - apply jsstring_eqb_eq in E. congruence.
  - rewrite Hbad. reflexivity.
Qed.

(** ** The further properties at concrete inputs *)

(** A configuration with a key that is no pattern between two domains. *)
Lemma isFakeDomain_rejected_key_throws_witness :
  isFakeDomain bundled (str "user.fakeemail.net")
    (Some {| domains := [js "tempmail.com"; js "**"; js "fakeemail.net"] |})
  = Throw SyntaxError.
Proof.
  apply (isFakeDomain_rejected_key_throws bundled
           (Some {| domains := [js "tempmail.com"; js "**";
                                js "fakeemail.net"] |})
           [js "tempmail.com"] [js "fakeemail.net"] (js "**")
           (js "user.fakeemail.net") SyntaxError);
    try reflexivity; try discriminate.
  intros k' [<- | []] [H | H].
  - vm_compute in H. discriminate H.
  - apply Matching.search_subdomain in H. vm_compute in H. discriminate H.
Defined.

Lemma isFakeDomain_case_and_padding_witness :
  isFakeDomain bundled (str "  USER.TempMail.COM  ") (Some mockJson)
  = isFakeDomain bundled (str "user.tempmail.com") (Some mockJson).
Proof.
  apply (isFakeDomain_case_and_padding bundled (Some mockJson)
           (js "  ") (js "USER.TempMail.COM") (js "  "));
    [discriminate | reflexivity | reflexivity].
Defined.

Lemma isFakeDomain_blank_witness :
  isFakeDomain bundled (str "   ") (Some mockJson) = Normal (VBoolean false).
Proof.
  apply (isFakeDomain_blank bundled (Some mockJson) (js "   "));
    [reflexivity | | reflexivity].
  intros H. vm_compute in H.
  destruct H as [H | [H | [H | [H | []]]]]; discriminate H.
Defined.

Lemma isFakeDomain_first_match_only_witness :
  key_matches (js "mail.com") (normalize (js "user.temp.mail.com")).
Proof.
  destruct (isFakeDomain_first_match_only bundled (Some overlapping)
              (js "user.temp.mail.com") (js "mail.com") eq_refl eq_refl)
    as [_ [pre [post [_ [_ H]]]]].
  exact H.
Defined.

Lemma isFakeDomain_false_iff_witness :
  isFakeDomain bundled (str "tempmail.com.fake.org") (Some mockJson)
  = Normal (VBoolean false).
Proof.
  apply (proj2 (isFakeDomain_false_iff bundled (Some mockJson)
                  (js "tempmail.com.fake.org") eq_refl ltac:(discriminate))).
  intros k Hin [H | H]; vm_compute in Hin;
    destruct Hin as [<- | [<- | [<- | [<- | []]]]];
    try (vm_compute in H; discriminate H);
    apply Matching.search_subdomain in H; vm_compute in H; discriminate H.
Defined.

Lemma isFakeDomain_more_keys_witness :
  exists k', In k' (domains mockJson)
             /\ isFakeDomain bundled (str "a.tempmail.com") (Some mockJson)
                = Normal (VString k').
Proof.
  apply (isFakeDomain_more_keys bundled
           {| domains := [js "tempmail.com"] |} mockJson
           (str "a.tempmail.com") (js "tempmail.com"));
    try reflexivity.
  intros x [<- | []]. left. reflexivity.
Defined.

Lemma isFakeDomain_verdict_order_witness :
  isFakeDomain bundled (str "gmail.com")
    (Some {| domains := [js "temp.mail.com"; js "mail.com"] |})
  = Normal (VBoolean false).
Proof.
  apply (proj1 (isFakeDomain_verdict_order bundled overlapping
                  {| domains := [js "temp.mail.com"; js "mail.com"] |}
                  (str "gmail.com") eq_refl eq_refl
                  ltac:(intros x; cbn [domains overlapping In]; tauto))).
  reflexivity.
Defined.

Lemma isFakeDomain_result_is_fixed_witness :
  isFakeDomain bundled (str "tempmail.com") (Some mockJson)
  = Normal (str "tempmail.com").
Proof.
  apply (isFakeDomain_result_is_fixed bundled (Some mockJson)
           (js "  Deep.Sub.TempMail.com") (js "tempmail.com"));
    try reflexivity.
  intros x Hin. vm_compute in Hin.
  destruct Hin as [<- | [<- | [<- | [<- | []]]]];
    (split; [discriminate | reflexivity]).
Defined.

Lemma isFakeDomain_below_reported_witness :
  exists k', In k' (domains mockJson)
             /\ isFakeDomain bundled (str "www.sub.throwaway.email")
                  (Some mockJson)
                = Normal (VString k').
Proof.
  apply (isFakeDomain_below_reported bundled (Some mockJson)
           (js "www") (js "sub.throwaway.email") (js "throwaway.email"));
    try reflexivity; discriminate.
Defined.

Lemma isFakeEmail_ignores_local_part_witness :
  isFakeEmail bundled (str "alice@tempmail.com@x") (Some mockJson)
  = isFakeEmail bundled (str "bob+tag@tempmail.com@x") (Some mockJson).
Proof.
  apply (isFakeEmail_ignores_local_part bundled (Some mockJson)
           (js "alice") (js "bob+tag") (js "tempmail.com@x"));
    try reflexivity; discriminate.
Defined.

Lemma isFakeEmail_empty_host_witness :
  isFakeEmail bundled (str "user@") (Some unbalanced) = Normal (VBoolean false)
  /\ isFakeEmail bundled (str "user@@tempmail.com") (Some unbalanced)
     = Normal (VBoolean false).
Proof.
  apply (isFakeEmail_empty_host bundled (Some unbalanced)
           (js "user") (js "tempmail.com"));
    [discriminate | reflexivity].
Defined.
